(** * Shallow embedding of the salt-shaker dependency resolver

    Sources: [shaker/libs/metadata.py], [shaker/libs/github.py],
    [shaker/shaker_metadata.py] and [shaker/shaker_remote.py].

    Python strings are lists of ASCII characters ([str]).  Python
    exceptions are the constructors of [exn]; a computation that may raise
    returns a [res].  The regular expressions of the source ([re] module)
    and the format strings of the [parse] library are run by a small
    backtracking matcher ([Regex.mseq]) whose alternatives are tried in the
    priority order of Python's engine: greedy repetitions longest first,
    lazy ones shortest first. *)

From Stdlib Require Import List Bool Arith Lia.
From Stdlib Require Import Strings.String Strings.Ascii.
Import ListNotations.
Open Scope list_scope.
Set Warnings "-register-all".

(* ------------------------------------------------------------------ *)
(** ** Python values: strings, exceptions, results *)

Definition str := list ascii.

(** String literal as a Python [str]. *)
Definition lit (s : string) : str := list_ascii_of_string s.

Inductive exn : Type :=
| ConstraintResolutionException
| ConstraintFormatException
| ShakerConfigException
| ShakerRequirementsParsingException
| GithubRepositoryConnectionException
| TypeError
| AttributeError
| KeyError (k : str)
| IndexError
| YAMLError
| OutOfFuel.

Inductive res (A : Type) : Type :=
| Ok (a : A)
| Exc (e : exn).
Arguments Ok {A} a.
Arguments Exc {A} e.

Notation "x <- m ;; k" :=
  (match m with Ok x => k | Exc e => Exc e end)
  (at level 61, m at next level, right associativity).

Definition str_eqb (a b : str) : bool :=
  if list_eq_dec ascii_dec a b then true else false.

(** Byte-wise lexicographic order of Python 2 [str]. *)
Fixpoint str_compare (a b : str) : comparison :=
  match a, b with
  | [], [] => Eq
  | [], _ :: _ => Lt
  | _ :: _, [] => Gt
  | x :: a', y :: b' =>
      match Nat.compare (nat_of_ascii x) (nat_of_ascii y) with
      | Eq => str_compare a' b'
      | c => c
      end
  end.

Definition str_geb (a b : str) : bool :=
  match str_compare a b with Lt => false | _ => true end.
Definition str_leb (a b : str) : bool :=
  match str_compare a b with Gt => false | _ => true end.

(** Python [max(a, b)] and [min(a, b)] on strings. *)
Definition py_max (a b : str) : str :=
  match str_compare b a with Gt => b | _ => a end.
Definition py_min (a b : str) : str :=
  match str_compare b a with Lt => b | _ => a end.

Definition mem_str (x : str) (l : list str) : bool :=
  existsb (str_eqb x) l.

Fixpoint prefixb (p s : str) : bool :=
  match p, s with
  | [], _ => true
  | a :: p', b :: s' => Ascii.eqb a b && prefixb p' s'
  | _ :: _, [] => false
  end.

(** Python [sub in s] for strings. *)
Fixpoint contains (sub s : str) : bool :=
  prefixb sub s ||
  match s with [] => false | _ :: s' => contains sub s' end.

(** Python 2 [str.isspace] characters, the class of [\s]. *)
Definition is_space (c : ascii) : bool :=
  let n := nat_of_ascii c in
  (n =? 32) || ((9 <=? n) && (n <=? 13)).

Definition is_digit (c : ascii) : bool :=
  let n := nat_of_ascii c in (48 <=? n) && (n <=? 57).

Definition is_lower (c : ascii) : bool :=
  let n := nat_of_ascii c in (97 <=? n) && (n <=? 122).

Definition is_cmp (c : ascii) : bool :=
  Ascii.eqb c "=" || Ascii.eqb c ">" || Ascii.eqb c "<".

Definition not_nl (c : ascii) : bool := negb (Ascii.eqb c "010").

Definition any_char (c : ascii) : bool := true.

(** ASCII lower-casing, used for case-insensitive matching. *)
Definition to_lower (c : ascii) : ascii :=
  let n := nat_of_ascii c in
  if (65 <=? n) && (n <=? 90) then ascii_of_nat (n + 32) else c.

(** Python [s.split(sep)] for a non-empty separator. *)
Fixpoint split_go (sep s : str) (skip : nat) (cur : str) : list str :=
  match s with
  | [] => [rev cur]
  | c :: s' =>
      match skip with
      | S k => split_go sep s' k cur
      | O =>
          if prefixb sep s
          then rev cur :: split_go sep s' (pred (List.length sep)) []
          else split_go sep s' 0 (c :: cur)
      end
  end.
Definition py_split (sep s : str) : list str := split_go sep s 0 [].

(** Python [s.split()] (runs of whitespace, no empty pieces). *)
Fixpoint split_ws_go (s : str) (cur : str) : list str :=
  match s with
  | [] => match cur with [] => [] | _ => [rev cur] end
  | c :: s' =>
      if is_space c
      then match cur with
           | [] => split_ws_go s' []
           | _ => rev cur :: split_ws_go s' []
           end
      else split_ws_go s' (c :: cur)
  end.
Definition py_split_ws (s : str) : list str := split_ws_go s [].

(** Python [s.strip()]. *)
Fixpoint lstrip (s : str) : str :=
  match s with
  | c :: s' => if is_space c then lstrip s' else s
  | [] => []
  end.
Definition py_strip (s : str) : str := rev (lstrip (rev (lstrip s))).

(* ------------------------------------------------------------------ *)
(** ** A backtracking matcher for the regular expressions of the code *)

Module Regex.

(** [Rep greedy lo hi p] is [p{lo,hi}] for a one-character class [p]. *)
Inductive item : Type :=
| Rep (greedy : bool) (lo : nat) (hi : option nat) (p : ascii -> bool).

Inductive rx : Type :=
| Atom (capture : bool) (i : item)
| EndZ     (** [\Z]: end of the input *)
| EndD.    (** [$]: end of the input or before a final newline *)

Fixpoint run_len (p : ascii -> bool) (s : str) : nat :=
  match s with
  | [] => 0
  | c :: s' => if p c then S (run_len p s') else 0
  end.

Fixpoint first_some {A B} (f : A -> option B) (l : list A) : option B :=
  match l with
  | [] => None
  | x :: l' => match f x with Some b => Some b | None => first_some f l' end
  end.

(** Repetition counts in the order the engine tries them. *)
Definition candidates (greedy : bool) (lo top : nat) : list nat :=
  let up := seq lo (S top - lo) in
  if greedy then rev up else up.

(** First match of [rs] at the start of [s]: the captured groups (in
    order) and the unconsumed rest. *)
Fixpoint mseq (rs : list rx) (s : str) (caps : list str)
  : option (list str * str) :=
  match rs with
  | [] => Some (rev caps, s)
  | Atom cap (Rep g lo hi p) :: rs' =>
      let run := run_len p s in
      let top := match hi with Some h => Nat.min h run | None => run end in
      first_some
        (fun n => mseq rs' (skipn n s)
                    (if cap then firstn n s :: caps else caps))
        (if top <? lo then [] else candidates g lo top)
  | EndZ :: rs' =>
      match s with [] => mseq rs' s caps | _ => None end
  | EndD :: rs' =>
      match s with
      | [] => mseq rs' s caps
      | [c] => if Ascii.eqb c "010" then mseq rs' s caps else None
      | _ => None
      end
  end.

(** [re.match(pattern, s)]: anchored at the start. *)
Definition re_match (rs : list rx) (s : str) : option (list str) :=
  option_map fst (mseq rs s []).

(** [re.search(pattern, s)]: first start position that matches. *)
Definition re_search (rs : list rx) (s : str) : option (list str) :=
  first_some (fun i => option_map fst (mseq rs (skipn i s) []))
             (seq 0 (S (List.length s))).

(** Building blocks. *)
Definition one (p : ascii -> bool) : rx := Atom false (Rep true 1 (Some 1) p).
Definition chr (a : ascii) : rx := one (Ascii.eqb a).
Definition chri (a : ascii) : rx :=
  one (fun c => Ascii.eqb (to_lower a) (to_lower c)).
Definition lits (s : string) : list rx := map chr (lit s).
Definition litsi (s : string) : list rx := map chri (lit s).
Definition plus_g (p : ascii -> bool) : rx := Atom true (Rep true 1 None p).
Definition star_g (p : ascii -> bool) : rx := Atom true (Rep true 0 None p).
Definition star_nc (p : ascii -> bool) : rx := Atom false (Rep true 0 None p).

(** [parse] library: a format is matched against the whole string,
    case-insensitively, with [.] matching newlines; a [{}] field is the
    lazy group [(.+?)], a [{:d}] field is a run of digits. *)
Definition field : rx := Atom true (Rep false 1 None any_char).
Definition field_d : rx := Atom true (Rep true 1 None is_digit).

Definition parse (fmt : list rx) (s : str) : option (list str) :=
  option_map fst (mseq (fmt ++ [EndZ]) s []).

End Regex.

Import Regex.

(* ------------------------------------------------------------------ *)
(** ** shaker/libs/metadata.py: constraints *)

Module Metadata.

(** [comparator_re]: a group of one or more of [=><], optional
    whitespace, then a group of the rest of the line. *)
Definition comparator_re : list rx :=
  [plus_g is_cmp; star_nc is_space; star_g not_nl].

(** The dictionary returned by [parse_constraint]. *)
Record constraint_info : Type := {
  comparator : str;
  tag : str;
  version : option str;
  postfix : option str
}.

(** [parse_constraint(constraint)]: [match.group(1)] on a failed search
    ([match] is [None]) raises [AttributeError]. *)
Definition parse_constraint (constraint : str) : res constraint_info :=
  match re_search comparator_re constraint with
  | Some [comp; tg] =>
      let '(ver, post) :=
        match Regex.parse (chri "v" :: field :: chri "-" :: field :: []) tg with
        | Some [v; p] => (Some v, Some p)
        | _ =>
            match Regex.parse [chri "v"; field] tg with
            | Some [v] => (Some v, None)
            | _ => (None, None)
            end
        end in
      Ok {| comparator := comp; tag := tg; version := ver; postfix := post |}
  | _ => Exc AttributeError
  end.

(** Python truthiness of a constraint argument: [None] or [{}] are
    represented by [None]; a string is truthy when non-empty. *)
Definition have (x : option str) : bool :=
  match x with Some (_ :: _) => true | _ => false end.

(** [resolve_constraints(new_constraint, current_constraint)] *)
Definition resolve_constraints (new_constraint current_constraint : option str)
  : res str :=
  let hn := have new_constraint in
  let hc := have current_constraint in
  match new_constraint, current_constraint with
  | _, _ =>
    if negb hn && negb hc then Ok []
    else if negb hn && hc then
      Ok (match current_constraint with Some c => c | None => [] end)
    else if hn && negb hc then
      Ok (match new_constraint with Some n => n | None => [] end)
    else
      match new_constraint, current_constraint with
      | Some n, Some c =>
          nr <- parse_constraint n ;;
          cr <- parse_constraint c ;;
          let nc := comparator nr in
          let cc := comparator cr in
          if str_eqb cc (lit "==") then Ok c
          else if str_eqb nc (lit "==") then Ok n
          else if negb (str_eqb nc cc) then Exc ConstraintResolutionException
          else if str_eqb nc (lit ">=") then Ok (lit ">=" ++ py_max (tag nr) (tag cr))
          else if str_eqb nc (lit "<=") then Ok (lit "<=" ++ py_min (tag nr) (tag cr))
          else Exc ConstraintFormatException
      | _, _ => Exc ConstraintFormatException
      end
  end.

End Metadata.

Import Metadata.

(* ------------------------------------------------------------------ *)
(** ** Remote collaborator and loaded YAML values *)

(** A value produced by [yaml.load] (numbers of any kind as [PInt]). *)
Inductive pyval : Type :=
| PNone
| PBool (b : bool)
| PInt (n : nat) (neg : bool)
| PStr (s : str)
| PList (l : list pyval)
| PDict (d : list (pyval * pyval)).

(** Python truthiness. *)
Definition truthy (v : pyval) : bool :=
  match v with
  | PNone => false
  | PBool b => b
  | PInt n _ => negb (n =? 0)
  | PStr s => match s with [] => false | _ => true end
  | PList l => match l with [] => false | _ => true end
  | PDict d => match d with [] => false | _ => true end
  end.

(** Python [==] against a string. *)
Definition pyval_is_str (x : str) (v : pyval) : bool :=
  match v with PStr s => str_eqb s x | _ => false end.

(** A tag or branch object of the GitHub API: its name and commit sha. *)
Record tag_rec : Type := { t_name : str; t_sha : str }.

(** The HTTP collaborator.  [tags_api], [branch_api] and [file_api] return
    [None] where [validate_github_access] rejects the response; [file_api]
    returns the raw content of a file at a ref. *)
Record remote : Type := {
  token : bool;
  tags_api : str -> str -> option (list tag_rec);
  branch_api : str -> str -> str -> option tag_rec;
  file_api : str -> str -> str -> str -> option str
}.

(* ------------------------------------------------------------------ *)
(** ** shaker/libs/github.py *)

Module Github.

Definition github_root : string := "git@github.com:".

(** Result of [parse_github_url]. *)
Record github_info : Type := {
  gi_source : str; gi_name : str; gi_organisation : str; gi_constraint : str
}.

(** [parse_github_url(url)] *)
Definition parse_github_url (url : str) : res github_info :=
  match py_split (lit ".git") url with
  | _ :: piece1 :: _ =>
      let have_constraint := negb (str_eqb piece1 []) in
      let result :=
        if have_constraint
        then Regex.parse (litsi github_root ++ [field; chri "/"; field] ++ litsi ".git" ++ [field]) url
        else Regex.parse (litsi github_root ++ [field; chri "/"; field] ++ litsi ".git") url in
      match result with
      | Some (org :: nm :: rest) =>
          let constraint := match rest with c :: _ => c | [] => [] end in
          Ok {| gi_source := lit github_root ++ org ++ lit "/" ++ nm ++ lit ".git";
                gi_name := nm; gi_organisation := org; gi_constraint := constraint |}
      | _ => Exc TypeError   (* subscript of the [None] parse result *)
      end
  | _ => Exc IndexError
  end.

(** Semver data of a tag: [None] fields are Python [None]. *)
Record semver : Type := {
  major : option nat; minor : option nat; patch : option nat; sv_postfix : option str
}.

Definition no_semver : semver :=
  {| major := None; minor := None; patch := None; sv_postfix := None |}.

Fixpoint digits_value_go (acc : nat) (s : str) : nat :=
  match s with
  | [] => acc
  | c :: s' => digits_value_go (acc * 10 + (nat_of_ascii c - 48)) s'
  end.
(** [int(s)] of a digit string. *)
Definition digits_value (s : str) : nat := digits_value_go 0 s.

Definition vnum : list rx :=
  [chr "v"; plus_g is_digit; one not_nl; plus_g is_digit; one not_nl; plus_g is_digit].
(** [v(\d+).(\d+).(\d+)$] *)
Definition re_release : list rx := vnum ++ [EndD].
(** [v(\d+).(\d+).(\d+)-(.+)] *)
Definition re_prerelease : list rx := vnum ++ [chr "-"; plus_g not_nl].
(** [v(\d+).(\d+).(\d+)(.+)] *)
Definition re_prerelease_compat : list rx := vnum ++ [plus_g not_nl].

Definition fmt_release : list rx :=
  [chri "v"; field_d; chri "."; field_d; chri "."; field_d].
Definition fmt_prerelease : list rx := fmt_release ++ [chri "-"; field].

(** [parse_semver_tag(tag)]; a [parse] that fails after the regular
    expression matched leaves [None], whose subscript raises [TypeError]. *)
Definition parse_semver_tag (tg : str) : res semver :=
  if re_match re_release tg then
    match Regex.parse fmt_release tg with
    | Some [a; b; c] =>
        Ok {| major := Some (digits_value a); minor := Some (digits_value b);
              patch := Some (digits_value c); sv_postfix := None |}
    | _ => Exc TypeError
    end
  else if re_match re_prerelease tg then
    match Regex.parse fmt_prerelease tg with
    | Some [a; b; c; p] =>
        Ok {| major := Some (digits_value a); minor := Some (digits_value b);
              patch := Some (digits_value c); sv_postfix := Some p |}
    | _ => Exc TypeError
    end
  else
    match re_match re_prerelease_compat tg with
    | Some [a; b; c; p] =>
        Ok {| major := Some (digits_value a); minor := Some (digits_value b);
              patch := Some (digits_value c); sv_postfix := Some p |}
    | _ => Ok no_semver
    end.

Definition valid_version_checks (p : semver) : bool :=
  match major p, minor p, patch p with
  | Some _, Some _, Some _ => true
  | _, _, _ => false
  end.

Definition postfix_truthy (p : semver) : bool :=
  match sv_postfix p with Some (_ :: _) => true | _ => false end.

(** [is_tag_release(tag)] *)
Definition is_tag_release (tg : str) : res bool :=
  p <- parse_semver_tag tg ;;
  Ok (valid_version_checks p && negb (postfix_truthy p)).

(** [is_tag_prerelease(tag)] *)
Definition is_tag_prerelease (tg : str) : res bool :=
  p <- parse_semver_tag tg ;;
  Ok (valid_version_checks p && postfix_truthy p).

(** *** [distutils.version.LooseVersion] (Python 2) *)

(** A component: an [int] or a [str]; in Python 2 numbers sort first. *)
Inductive lv_comp : Type := LInt (n : nat) | LStr (s : str).

(** Character kinds of [component_re = (\d+ | [a-z]+ | \.)]: runs of
    digits, runs of lower-case letters, single dots, and the text between
    matches. *)
Definition kind (c : ascii) : nat :=
  if is_digit c then 1 else if is_lower c then 2
  else if Ascii.eqb c "." then 3 else 0.

Fixpoint runs (s : str) : list (nat * str) :=
  match s with
  | [] => []
  | c :: s' =>
      match runs s' with
      | (k, r) :: rest =>
          if (k =? kind c) && negb (k =? 3) then (k, c :: r) :: rest
          else (kind c, [c]) :: (k, r) :: rest
      | [] => [(kind c, [c])]
      end
  end.

(** [LooseVersion(s).version]: pieces other than dots, digit runs as ints. *)
Definition loose_version (s : str) : list lv_comp :=
  flat_map (fun '(k, r) =>
              if k =? 3 then []
              else if k =? 1 then [LInt (digits_value r)] else [LStr r])
           (runs s).

Definition lv_comp_compare (a b : lv_comp) : comparison :=
  match a, b with
  | LInt x, LInt y => Nat.compare x y
  | LInt _, LStr _ => Lt
  | LStr _, LInt _ => Gt
  | LStr x, LStr y => str_compare x y
  end.

Fixpoint lv_compare (a b : list lv_comp) : comparison :=
  match a, b with
  | [], [] => Eq
  | [], _ :: _ => Lt
  | _ :: _, [] => Gt
  | x :: a', y :: b' =>
      match lv_comp_compare x y with Eq => lv_compare a' b' | c => c end
  end.

(** Python's [list.sort] is stable: insertion after every element that
    is not greater. *)
Fixpoint insert_by {A} (cmp : A -> A -> comparison) (x : A) (l : list A) : list A :=
  match l with
  | [] => [x]
  | y :: l' => match cmp x y with Lt => x :: y :: l' | _ => y :: insert_by cmp x l' end
  end.
Definition sort_by {A} (cmp : A -> A -> comparison) (l : list A) : list A :=
  fold_left (fun acc x => insert_by cmp x acc) l [].

Definition sort_loose (l : list str) : list str :=
  sort_by (fun a b => lv_compare (loose_version a) (loose_version b)) l.

(** The loop of [get_latest_tag] over the reversed sorted list. *)
Fixpoint latest_loop (include_prereleases : bool) (l : list str) : res (option str) :=
  match l with
  | [] => Ok None
  | tv :: l' =>
      is_release <- is_tag_release (lit "v" ++ tv) ;;
      is_prerelease <- is_tag_prerelease (lit "v" ++ tv) ;;
      if negb include_prereleases then
        if is_release && negb is_prerelease then Ok (Some tv)
        else latest_loop include_prereleases l'
      else if is_release || is_prerelease then Ok (Some tv)
      else latest_loop include_prereleases l'
  end.

(** [get_latest_tag(tag_versions, include_prereleases)]; it also sorts
    the caller's list in place ([sort_loose]). *)
Definition get_latest_tag (tag_versions : list str) (include_prereleases : bool)
  : res (option str) :=
  latest_loop include_prereleases (rev (sort_loose tag_versions)).

End Github.

Import Github.

(** ** github.py: functions that talk to the remote *)

Module GithubApi.

Section WithRemote.

Variable R : remote.

(** First element of [tags_data] whose ["name"] is [n]. *)
Definition find_tag (n : option str) (tags_data : list tag_rec) : option tag_rec :=
  match n with
  | None => None
  | Some n => find (fun t => str_eqb (t_name t) n) tags_data
  end.

(** Tag versions of [get_valid_tags]: [convert_tag_to_semver] is called on
    every tag (it always returns a four-element list) and the name is
    kept when [parse('v{tag}', raw_name)] succeeds. *)
Fixpoint tag_versions_of (tags : list tag_rec) : res (list str) :=
  match tags with
  | [] => Ok []
  | t :: tags' =>
      _ <- parse_semver_tag (t_name t) ;;
      rest <- tag_versions_of tags' ;;
      match Regex.parse [chri "v"; field] (t_name t) with
      | Some [v] => Ok (v :: rest)
      | _ => Ok rest
      end
  end.

(** [get_valid_tags(org_name, formula_name)]: the wanted tag, the tag
    versions (sorted by [sort()], then in place by [LooseVersion] inside
    [get_latest_tag]) and the tag objects. *)
Definition get_valid_tags (org_name formula_name : str)
  : res (option str * list str * list tag_rec) :=
  if negb (token R) then Exc GithubRepositoryConnectionException else
  match tags_api R org_name formula_name with
  | None => Ok (None, [], [])
  | Some tags_data =>
      tv <- tag_versions_of tags_data ;;
      let tv := sort_by str_compare tv in
      wanted_version <- get_latest_tag tv false ;;
      let wanted_tag :=
        match wanted_version with
        | Some ((_ :: _) as w) => Some (lit "v" ++ w)
        | _ => None
        end in
      Ok (wanted_tag, sort_loose tv, tags_data)
  end.

(** [get_branch_data(org_name, formula_name, branch_name)] *)
Definition get_branch_data (org_name formula_name branch_name : str)
  : res (option tag_rec) :=
  if negb (token R) then Exc GithubRepositoryConnectionException
  else Ok (branch_api R org_name formula_name branch_name).

(** The [>=] loop over [reversed(tag_versions)]. *)
Fixpoint scan_ge (parsed_version : str) (l : list str) : res (option str) :=
  match l with
  | [] => Ok None
  | tv :: l' =>
      if str_geb tv parsed_version then
        pre <- is_tag_prerelease tv ;;
        if negb pre then Ok (Some tv) else scan_ge parsed_version l'
      else Exc ConstraintResolutionException
  end.

(** The [<=] loop over [reversed(tag_versions)]. *)
Fixpoint scan_le (parsed_version : str) (l : list str) : res (option str) :=
  match l with
  | [] => Ok None
  | tv :: l' =>
      if str_leb tv parsed_version then
        pre <- is_tag_prerelease tv ;;
        if negb pre then Ok (Some tv) else scan_le parsed_version l'
      else scan_le parsed_version l'
  end.

Definition str_truthy (s : option str) : bool :=
  match s with Some (_ :: _) => true | _ => false end.

(** [resolve_constraint_to_object(org_name, formula_name, constraint)] *)
Definition resolve_constraint_to_object (org_name formula_name constraint : str)
  : res (option tag_rec) :=
  match
    (if str_truthy (Some constraint) then
       pc <- parse_constraint constraint ;;
       if negb (str_truthy (version pc)) then
         branch_data <- get_branch_data org_name formula_name (tag pc) ;;
         match branch_data with
         | None => Exc ConstraintResolutionException
         | Some b => Ok (Some (Some b))
         end
       else Ok None
     else Ok None)
  with
  | Exc e => Exc e
  | Ok (Some found) => Ok found
  | Ok None =>
      vt <- get_valid_tags org_name formula_name ;;
      let '(wanted_tag, tag_versions, tags_data) := vt in
      if negb (str_truthy (Some constraint)) then Ok (find_tag wanted_tag tags_data)
      else
        pc <- parse_constraint constraint ;;
        match tag_versions, version pc with
        | _ :: _, Some ((_ :: _) as parsed_version) =>
            if str_eqb (comparator pc) (lit "==") then
              if mem_str parsed_version tag_versions
              then Ok (find_tag (Some (tag pc)) tags_data)
              else Exc ConstraintResolutionException
            else
              valid_version <-
                (if str_eqb (comparator pc) (lit ">=") then
                   scan_ge parsed_version (rev tag_versions)
                 else if str_eqb (comparator pc) (lit "<=") then
                   vv <- scan_le parsed_version (rev tag_versions) ;;
                   if str_truthy vv then Ok vv else Exc ConstraintResolutionException
                 else Exc ConstraintResolutionException) ;;
              match valid_version with
              | Some ((_ :: _) as v) => Ok (find_tag (Some (lit "v" ++ v)) tags_data)
              | _ => Exc ConstraintResolutionException
              end
        | _, _ => Exc ConstraintResolutionException
        end
  end.

End WithRemote.

End GithubApi.

Import GithubApi.

(** The tag objects of the test suite of [github.py]. *)
Definition sample_tags : list tag_rec :=
  [ {| t_name := lit "v1.0.1"; t_sha := lit "6826533980361f54b9de17d181830fa4ec94138c" |};
    {| t_name := lit "v2.0.1"; t_sha := lit "1d7d509b534b08b08b1f85253990b6c3f0dec007" |} ].

(** A remote serving only the given tags for every repository. *)
Definition tags_remote (tags : list tag_rec) : remote :=
  {| token := true;
     tags_api := fun _ _ => Some tags;
     branch_api := fun _ _ _ => None;
     file_api := fun _ _ _ _ => None |}.

(* ------------------------------------------------------------------ *)
(** ** metadata.py: requirement lists *)

Module Requirements.

(** A dependency dictionary; [None] is an absent key. *)
Record dep : Type := {
  d_source : option str;
  d_constraint : option str;
  d_sourced : option (list str);
  d_organisation : option str;
  d_name : option str
}.

Definition empty_dep : dep :=
  {| d_source := None; d_constraint := None; d_sourced := None;
     d_organisation := None; d_name := None |}.

(** Python dictionaries with string keys, in insertion order. *)
Fixpoint dict_set {A} (k : str) (v : A) (d : list (str * A)) : list (str * A) :=
  match d with
  | [] => [(k, v)]
  | (k', v') :: d' => if str_eqb k k' then (k, v) :: d' else (k', v') :: dict_set k v d'
  end.

Fixpoint dict_get {A} (k : str) (d : list (str * A)) : option A :=
  match d with
  | [] => None
  | (k', v') :: d' => if str_eqb k k' then Some v' else dict_get k d'
  end.

(** The pattern of a simple requirement line: a greedy group of the line,
    a group of exactly two of [=><], optional whitespace, a greedy group
    of the rest of the line. *)
Definition requirement_re : list rx :=
  [star_g not_nl; Atom true (Rep true 2 (Some 2) is_cmp); star_nc is_space; star_g not_nl].

(** The [github_url] parsing of one entry of [parse_metadata_requirements]. *)
Definition parse_requirement (md : str) : res github_info :=
  if contains (lit ".git") md || contains (lit "git@") md then parse_github_url md
  else
    match re_search requirement_re md with
    | Some [f; c; v] =>
        parse_github_url (lit github_root ++ py_strip f ++ lit ".git" ++ py_strip c ++ py_strip v)
    | _ => parse_github_url (lit github_root ++ md ++ lit ".git")
    end.

Definition nonempty (s : str) : bool := match s with [] => false | _ => true end.

(** [parse_metadata_requirements(metadata_dependencies)], over the items
    the loop iterates; a non-string item raises [TypeError]. *)
Fixpoint parse_metadata_requirements_go (items : list pyval) (acc : list (str * dep))
  : res (list (str * dep)) :=
  match items with
  | [] => Ok acc
  | PStr md :: items' =>
      info <- parse_requirement md ;;
      let entry := {| d_source := Some (gi_source info);
                      d_constraint := Some (gi_constraint info);
                      d_sourced := Some [];
                      d_organisation := Some (gi_organisation info);
                      d_name := Some (gi_name info) |} in
      if nonempty (gi_source info) && nonempty (gi_organisation info) && nonempty (gi_name info)
      then
        let key := gi_organisation info ++ lit "/" ++ gi_name info in
        parse_metadata_requirements_go items' (dict_set key entry acc)
      else Exc ShakerRequirementsParsingException
  | _ :: _ => Exc TypeError
  end.

Definition parse_metadata_requirements (items : list pyval) : res (list (str * dep)) :=
  parse_metadata_requirements_go items [].

(** Python iteration of a loaded value: characters of a string, elements
    of a list, keys of a dictionary. *)
Definition py_iter (v : pyval) : res (list pyval) :=
  match v with
  | PStr s => Ok (map (fun c => PStr [c]) s)
  | PList l => Ok l
  | PDict d => Ok (map fst d)
  | _ => Exc TypeError
  end.


End Requirements.

Import Requirements.

(* ------------------------------------------------------------------ *)
(** ** shaker/shaker_metadata.py: the dependency traversal *)

Module ShakerMetadata.

(** The fields of a [ShakerMetadata] object read by the traversal.  The
    dependency dictionaries are objects on a heap, so that an entry shared
    by [self.dependencies] and a [base_dependencies] being iterated is one
    object; [fetch_log] records the (key, constraint) pair of every
    dependency that reaches the remote fetches of [_fetch_dependencies]. *)
Record state : Type := {
  root_formula : option str;                    (* root_metadata.get('formula') *)
  root_deps : option (list (str * nat));        (* root_metadata['dependencies'] *)
  local_requirements : list (str * nat);
  dependencies : list (str * nat);
  heap : list dep;
  fetch_log : list (str * str)
}.

Definition with_deps (st : state) (d : list (str * nat)) : state :=
  {| root_formula := root_formula st; root_deps := root_deps st;
     local_requirements := local_requirements st; dependencies := d;
     heap := heap st; fetch_log := fetch_log st |}.

Definition with_heap (st : state) (h : list dep) : state :=
  {| root_formula := root_formula st; root_deps := root_deps st;
     local_requirements := local_requirements st; dependencies := dependencies st;
     heap := h; fetch_log := fetch_log st |}.

Definition with_log (st : state) (l : list (str * str)) : state :=
  {| root_formula := root_formula st; root_deps := root_deps st;
     local_requirements := local_requirements st; dependencies := dependencies st;
     heap := heap st; fetch_log := l |}.

(** A state and exception monad; a raised exception keeps the state
    reached so far. *)
Definition M (A : Type) : Type := state -> state * res A.

Definition ret {A} (a : A) : M A := fun st => (st, Ok a).

Definition bind {A B} (m : M A) (k : A -> M B) : M B :=
  fun st => match m st with
            | (st', Ok a) => k a st'
            | (st', Exc e) => (st', Exc e)
            end.

Notation "'let!' x ':=' m 'in' k" := (bind m (fun x => k))
  (at level 200, x name, m at level 200, k at level 200).

Definition raise {A} (e : exn) : M A := fun st => (st, Exc e).
Definition lift {A} (r : res A) : M A := fun st => (st, r).
Definition get : M state := fun st => (st, Ok st).
Definition put (st : state) : M unit := fun _ => (st, Ok tt).

Fixpoint list_set {A} (n : nat) (x : A) (l : list A) : list A :=
  match l, n with
  | [], _ => []
  | _ :: l', O => x :: l'
  | y :: l', S n' => y :: list_set n' x l'
  end.

Definition heap_get (st : state) (id : nat) : dep :=
  match nth_error (heap st) id with Some d => d | None => empty_dep end.

Definition update_dep (id : nat) (f : dep -> dep) : M unit :=
  fun st => (with_heap st (list_set id (f (heap_get st id)) (heap st)), Ok tt).

Definition alloc (d : dep) : M nat :=
  fun st => (with_heap st (heap st ++ [d])%list, Ok (List.length (heap st))).

Fixpoint alloc_all (l : list (str * dep)) : M (list (str * nat)) :=
  match l with
  | [] => ret []
  | (k, d) :: l' => let! id := alloc d in
                    let! ids := alloc_all l' in
                    ret ((k, id) :: ids)
  end.

Definition log_fetch (k c : str) : M unit :=
  fun st => (with_log st (fetch_log st ++ [(k, c)])%list, Ok tt).

Definition set_sourced (l : list str) (d : dep) : dep :=
  {| d_source := d_source d; d_constraint := d_constraint d; d_sourced := Some l;
     d_organisation := d_organisation d; d_name := d_name d |}.

Definition set_constraint (c : str) (d : dep) : dep :=
  {| d_source := d_source d; d_constraint := Some c; d_sourced := d_sourced d;
     d_organisation := d_organisation d; d_name := d_name d |}.

(** [d.get('sourced_constraints', [])] and [d.get('constraint', '')]. *)
Definition sourced_of (d : dep) : list str :=
  match d_sourced d with Some l => l | None => [] end.

Definition constraint_of (d : dep) : str :=
  match d_constraint d with Some c => c | None => [] end.

(** ["%s" % x] of an optional string. *)
Definition py_str_of (o : option str) : str :=
  match o with Some s => s | None => lit "None" end.

Definition is_root (root : option str) (k : str) : bool :=
  match root with Some r => str_eqb k r | None => false end.

(** [_parse_metadata_name(metadata_name)] on a loaded value. *)
Definition parse_metadata_name (v : pyval) : res (str * str) :=
  let has_slash :=
    match v with
    | PStr s => Ok (contains (lit "/") s)
    | PList l => Ok (existsb (pyval_is_str (lit "/")) l)
    | PDict d => Ok (existsb (fun kv => pyval_is_str (lit "/") (fst kv)) d)
    | _ => Exc TypeError
    end in
  b <- has_slash ;;
  if negb b then Exc ShakerConfigException
  else match v with
       | PStr s => match py_split (lit "/") s with
                   | [org; name] => Ok (org, name)
                   | _ => Exc ShakerConfigException
                   end
       | _ => Exc AttributeError
       end.

(** The [metadata] handed to [_add_dependencies_from_metadata]: the
    dictionary [{"dependencies": remote_requirements}] or the value returned
    by [_fetch_remote_metadata]. *)
Inductive meta : Type :=
| MReq (d : list (str * dep))
| MYaml (v : pyval).

Definition meta_truthy (m : meta) : bool :=
  match m with MReq _ => true | MYaml v => truthy v end.

(** [metadata.get('dependencies', None)], tested for truthiness and
    iterated by [parse_metadata_requirements]. *)
Definition meta_dependencies (m : meta) : res (option (list pyval)) :=
  match m with
  | MReq d => Ok (match d with [] => None | _ => Some (map (fun kv => PStr (fst kv)) d) end)
  | MYaml (PDict kv) =>
      match find (fun p => pyval_is_str (lit "dependencies") (fst p)) kv with
      | Some (_, v) => if truthy v then items <- py_iter v ;; Ok (Some items) else Ok None
      | None => Ok None
      end
  | MYaml _ => Exc AttributeError
  end.

Section Traversal.

(** The HTTP collaborator, [yaml.load] on a string ([None] where it raises
    a [YAMLError]), and the order in which [dict.items()] lists a
    dictionary of dependencies (hash order in Python 2). *)
Variable R : remote.
Variable yaml_load : str -> option pyval.
Variable dict_order : list (str * nat) -> list (str * nat).

(** [yaml.load(x)] on an already loaded value: a string is parsed again,
    any other object is read as a stream and has no [read] attribute. *)
Definition yaml_reload (v : pyval) : res pyval :=
  match v with
  | PStr s => match yaml_load s with Some v' => Ok v' | None => Exc YAMLError end
  | _ => Exc AttributeError
  end.

(** [_fetch_remote_file(org_name, formula_name, remote_file, constraint)] *)
Definition fetch_remote_file (org_name formula_name : option str) (remote_file constraint : str)
  : res (option pyval) :=
  if negb (token R) then Exc GithubRepositoryConnectionException else
  let o := py_str_of org_name in
  let n := py_str_of formula_name in
  target_obj <- resolve_constraint_to_object R o n constraint ;;
  match target_obj with
  | None => Exc GithubRepositoryConnectionException
  | Some t =>
      match file_api R o n (t_name t) remote_file with
      | Some content =>
          match yaml_load content with Some v => Ok (Some v) | None => Exc YAMLError end
      | None => Ok None
      end
  end.

(** [_fetch_remote_requirements(org_name, formula_name, constraint)] *)
Definition fetch_remote_requirements (org_name formula_name : option str) (constraint : str)
  : res (option (list (str * dep))) :=
  raw_requirements <- fetch_remote_file org_name formula_name
                        (lit "formula-requirements.txt") constraint ;;
  match raw_requirements with
  | Some v =>
      if truthy v then
        match v with
        | PStr s =>
            match py_split_ws s with
            | [] => Exc ShakerConfigException
            | data =>
                parsed_data <- parse_metadata_requirements (map PStr data) ;;
                Ok (Some (map (fun kv => (fst kv, set_sourced [constraint_of (snd kv)] (snd kv)))
                              parsed_data))
            end
        | _ => Exc AttributeError
        end
      else Ok None
  | None => Ok None
  end.

(** [_fetch_remote_metadata(org_name, formula_name, constraint)]; the
    dictionary [parsed_data] holds the keys [organisation], [name] and
    [dependencies] when ["dependences"] is looked up. *)
Definition fetch_remote_metadata (org_name formula_name : option str) (constraint : str)
  : res (option pyval) :=
  if negb (token R) then Exc GithubRepositoryConnectionException else
  metadata <- fetch_remote_file org_name formula_name (lit "metadata.yml") constraint ;;
  match metadata with
  | Some m =>
      if truthy m then
        data <- yaml_reload m ;;
        root_name_entry <- parse_metadata_name data ;;
        items <- py_iter data ;;
        deps <- parse_metadata_requirements items ;;
        let parsed_data : list (str * option (list (str * dep))) :=
          [(lit "organisation", None); (lit "name", None); (lit "dependencies", Some deps)] in
        match dict_get (lit "dependences") parsed_data with
        | Some _ => Ok (Some data)
        | None => Exc (KeyError (lit "dependences"))
        end
      else Ok None
  | None => Ok None
  end.

(** [_add_dependency_sourced(dependency_key, constraint)] *)
Definition add_dependency_sourced (dependency_key constraint : str) : M unit :=
  let! st := get in
  match dict_get dependency_key (dependencies st) with
  | Some id => update_dep id (set_sourced (constraint :: sourced_of (heap_get st id)))
  | None =>
      let! id := alloc (set_sourced [constraint] empty_dep) in
      let! st' := get in
      put (with_deps st' (dict_set dependency_key id (dependencies st')))
  end.

(** The loop of [_add_dependencies_from_metadata] over the parsed entries. *)
Fixpoint merge_dependencies (l : list (str * nat)) : M unit :=
  match l with
  | [] => ret tt
  | (dep_key, id) :: l' =>
      let! st := get in
      let! _ :=
        if is_root (root_formula st) dep_key then ret tt
        else match dict_get dep_key (dependencies st) with
             | None => put (with_deps st (dict_set dep_key id (dependencies st)))
             | Some cid =>
                 let! rc := lift (resolve_constraints (d_constraint (heap_get st id))
                                                      (d_constraint (heap_get st cid))) in
                 let! _ := update_dep cid (set_constraint rc) in
                 let! st' := get in
                 update_dep cid (set_sourced (sourced_of (heap_get st' cid)
                                              ++ sourced_of (heap_get st' id)))
             end in
      merge_dependencies l'
  end.

(** [_add_dependencies_from_metadata(metadata)]: returns the parsed
    entries, which are the objects added to [self.dependencies]. *)
Definition add_dependencies_from_metadata (metadata : meta) : M (list (str * nat)) :=
  if negb (meta_truthy metadata) then raise ShakerConfigException else
  let! md := lift (meta_dependencies metadata) in
  match md with
  | None => ret []
  | Some items =>
      let! parsed := lift (parse_metadata_requirements items) in
      let! ids := alloc_all parsed in
      let! _ := merge_dependencies (dict_order ids) in
      ret ids
  end.

(** [_fetch_dependencies(base_dependencies, ignore_dependency_requirements)];
    [fuel] bounds the depth of the recursion ([OutOfFuel] when spent). *)
Fixpoint fetch_dependencies (fuel : nat) (base_dependencies : list (str * nat))
         (ignore_dependency_requirements : bool) {struct fuel} : M unit :=
  match fuel with
  | O => raise OutOfFuel
  | S fuel' =>
      let fix loop (l : list (str * nat)) : M unit :=
        match l with
        | [] => ret tt
        | (dependency_key, id) :: l' =>
            let! st := get in
            let dependency_info := heap_get st id in
            let constraint := constraint_of dependency_info in
            let skip :=
              match dict_get dependency_key (dependencies st) with
              | Some did => mem_str constraint (sourced_of (heap_get st did))
                            || is_root (root_formula st) dependency_key
              | None => false
              end in
            if skip then loop l' else
            let! _ := log_fetch dependency_key constraint in
            let org_name := d_organisation dependency_info in
            let formula_name := d_name dependency_info in
            let! remote_requirements :=
              if ignore_dependency_requirements then ret None
              else lift (fetch_remote_requirements org_name formula_name constraint) in
            let! remote_metadata :=
              match remote_requirements with
              | Some ((_ :: _) as d) => ret (Some (MReq d))
              | _ => let! md := lift (fetch_remote_metadata org_name formula_name constraint) in
                     ret (option_map MYaml md)
              end in
            let! st2 := get in
            let! _ := add_dependency_sourced dependency_key (constraint_of (heap_get st2 id)) in
            let! _ :=
              match remote_metadata with
              | Some m =>
                  if meta_truthy m then
                    let! remote_dependencies := add_dependencies_from_metadata m in
                    fetch_dependencies fuel' remote_dependencies false
                  else ret tt
              | None => ret tt
              end in
            loop l'
        end in
      loop (dict_order base_dependencies)
  end.

(** [update_dependencies(ignore_local_requirements, ignore_dependency_requirements)] *)
Definition update_dependencies (fuel : nat) (ignore_local_requirements
           ignore_dependency_requirements : bool) : M unit :=
  let! st := get in
  match local_requirements st with
  | (_ :: _) as lr =>
      if negb ignore_local_requirements then
        let! _ := put (with_deps st lr) in
        fetch_dependencies fuel lr ignore_dependency_requirements
      else
        match root_deps st with
        | Some ((_ :: _) as rd) =>
            let! _ := put (with_deps st rd) in
            fetch_dependencies fuel rd ignore_dependency_requirements
        | _ => ret tt
        end
  | [] =>
      match root_deps st with
      | Some ((_ :: _) as rd) =>
          let! _ := put (with_deps st rd) in
          fetch_dependencies fuel rd ignore_dependency_requirements
      | _ => ret tt
      end
  end.

End Traversal.

End ShakerMetadata.

Import ShakerMetadata.

(* ------------------------------------------------------------------ *)
(** ** Invariants of the traversal *)






(* ------------------------------------------------------------------ *)
(** ** Lockfile lines *)




(* ------------------------------------------------------------------ *)
(** ** Scenarios *)

Definition mk_tag (n : string) : tag_rec :=
  {| t_name := lit n; t_sha := lit "0000000000000000000000000000000000000000" |}.

(** A release and a later pre-release. *)
Definition prerelease_tags : list tag_rec := [mk_tag "v1.0.0"; mk_tag "v2.0.0-pre"].

(** A release, a pre-release and a tag that is not semver. *)
Definition mixed_tags : list tag_rec :=
  [mk_tag "v1.1.1"; mk_tag "v2.2.2-pre"; mk_tag "v3.3.3notsemver"].

(** A remote whose repositories all carry the tag [v1.0.0] and whose
    files are given by [files formula_name file_name]. *)
Definition files_remote (files : str -> str -> option str) : remote :=
  {| token := true;
     tags_api := fun _ _ => Some [mk_tag "v1.0.0"];
     branch_api := fun _ _ _ => None;
     file_api := fun _ n _ f => files n f |}.

(** [yaml.load] of a file holding a plain scalar: the text itself. *)
Definition yaml_scalar (s : str) : option pyval := Some (PStr s).

Definition insertion_order (l : list (str * nat)) : list (str * nat) := l.

(** A [ShakerMetadata] after [load_local_metadata]: the root formula and
    the parsed root dependencies, each dictionary on the heap. *)
Definition initial_state (root : option str) (reqs : list string) : state :=
  let ds := match parse_metadata_requirements (map (fun r => PStr (lit r)) reqs) with
            | Ok d => d | Exc _ => [] end in
  {| root_formula := root;
     root_deps := Some (combine (map fst ds) (seq 0 (List.length ds)));
     local_requirements := [];
     dependencies := [];
     heap := map snd ds;
     fetch_log := [] |}.

(** The requirements file of [formula], if any. *)
Definition requirements_of (table : list (string * string)) (formula file : str) : option str :=
  if str_eqb file (lit "formula-requirements.txt") then
    option_map (fun p => lit (snd p)) (find (fun p => str_eqb (lit (fst p)) formula) table)
  else None.

(** Root [org/a-formula] needs [org/b-formula], which needs [org/a-formula]. *)
Definition cycle_remote : remote :=
  files_remote (requirements_of [("b-formula", "org/a-formula==v1.0.0")%string]).
Definition cycle_state : state :=
  initial_state (Some (lit "org/a-formula")) ["org/b-formula==v1.0.0"%string].
Definition cycle_run : state * res unit :=
  update_dependencies cycle_remote yaml_scalar insertion_order 10 false false cycle_state.



(** A [metadata.yml] with a formula name and one dependency, and the value
    [yaml.load] gives for it. *)
Definition metadata_text : string :=
  "formula: org/x-formula
dependencies:
  - org/y-formula==v1.0.0
".
Definition metadata_value : pyval :=
  PDict [(PStr (lit "formula"), PStr (lit "org/x-formula"));
         (PStr (lit "dependencies"), PList [PStr (lit "org/y-formula==v1.0.0")])].
Definition metadata_yaml_load (s : str) : option pyval :=
  if str_eqb s (lit metadata_text) then Some metadata_value else Some (PStr s).
Definition metadata_remote : remote :=
  files_remote (fun _ f => if str_eqb f (lit "metadata.yml") then Some (lit metadata_text) else None).


Example parse_constraint_ex1 :
  option_map version (match parse_constraint (lit "==v1.0.1-rc1") with Ok r => Some r | _ => None end)
  = Some (Some (lit "1.0.1")).
Proof. vm_compute. reflexivity. Qed.

Example resolve_constraints_ex1 :
  resolve_constraints (Some (lit "==v1.0")) (Some (lit ">=v0.9")) = Ok (lit "==v1.0").
Proof. vm_compute. reflexivity. Qed.

Example resolve_constraints_ex2 :
  resolve_constraints (Some (lit ">=v1.2")) (Some (lit ">=v1.1")) = Ok (lit ">=v1.2").
Proof. vm_compute. reflexivity. Qed.

Example get_latest_tag_ex :
  get_latest_tag [lit "1.1.1"; lit "2.2.2-pre"; lit "3.3.3notsemver"] false
  = Ok (Some (lit "1.1.1")).
Proof. vm_compute. reflexivity. Qed.

Example parse_github_url_ex :
  option_map gi_constraint
    (match parse_github_url (lit "git@github.com:test_organisation/test3-formula.git==v3.0.2")
     with Ok r => Some r | _ => None end)
  = Some (lit "==v3.0.2").
Proof. vm_compute. reflexivity. Qed.

Example resolve_ge_ex :
  option_map (option_map t_name)
    (match resolve_constraint_to_object (tags_remote sample_tags) (lit "o") (lit "f") (lit ">=v1.1")
     with Ok r => Some r | _ => None end)
  = Some (Some (lit "v2.0.1")).
Proof. vm_compute. reflexivity. Qed.

Example resolve_le_ex :
  option_map (option_map t_name)
    (match resolve_constraint_to_object (tags_remote sample_tags) (lit "o") (lit "f") (lit "<=v1.1")
     with Ok r => Some r | _ => None end)
  = Some (Some (lit "v1.0.1")).
Proof. vm_compute. reflexivity. Qed.

Example parse_metadata_requirements_ex :
  option_map (map (fun '(k, d) => (k, d_constraint d)))
    (match parse_metadata_requirements
             [PStr (lit "test_organisation/some-formula ==   v1.0");
              PStr (lit "git@github.com:test_organisation/another-formula.git>=v2.0")]
     with Ok r => Some r | _ => None end)
  = Some [(lit "test_organisation/some-formula", Some (lit "==v1.0"));
          (lit "test_organisation/another-formula", Some (lit ">=v2.0"))].
Proof. vm_compute. reflexivity. Qed.

(* ================================================================== *)
(** * Properties *)

(** ** Strings and the matcher *)

Lemma str_eqb_eq (a b : str) : str_eqb a b = true <-> a = b.
Proof. unfold str_eqb; destruct (list_eq_dec ascii_dec a b); split; congruence. Qed.

Lemma str_eqb_refl (a : str) : str_eqb a a = true.
Proof. apply str_eqb_eq; reflexivity. Qed.

Lemma str_eqb_neq (a b : str) : a <> b -> str_eqb a b = false.
Proof. intro H; destruct (str_eqb a b) eqn:E; [apply str_eqb_eq in E; contradiction | reflexivity]. Qed.

(** A one-character item consumes one matching character. *)
Lemma mseq_one (p : ascii -> bool) (rs : list rx) (s : str) (caps : list str) :
  mseq (one p :: rs) s caps =
  match s with c :: s' => if p c then mseq rs s' caps else None | [] => None end.
Proof.
  destruct s as [|c s']; [reflexivity|].
  simpl; destruct (p c); simpl; [destruct (mseq rs s' caps); reflexivity | reflexivity].
Qed.

Lemma run_len_skipn_none (p : ascii -> bool) (s : str) (i : nat) :
  forallb (fun c => negb (p c)) s = true -> run_len p (skipn i s) = 0.
Proof.
  revert i; induction s as [|c s IH]; intros i H; destruct i; simpl in *; try reflexivity.
  - apply andb_prop in H as [H1 _]; destruct (p c); [discriminate | reflexivity].
  - apply andb_prop in H as [_ H2]; apply IH, H2.
Qed.

(** A tag that does not start with [v] is never a pre-release for
    [is_tag_prerelease]: every pattern of [parse_semver_tag] starts with
    a [v]. *)
Lemma is_tag_prerelease_without_v (tg : str) :
  match tg with c :: _ => Ascii.eqb "v" c = false | [] => True end ->
  is_tag_prerelease tg = Ok false.
Proof.
  intro H.
  assert (Hv : forall rs, mseq (chr "v" :: rs) tg [] = None).
  { intro rs; unfold chr; rewrite mseq_one; destruct tg as [|c t]; [reflexivity|].
    rewrite H; reflexivity. }
  unfold is_tag_prerelease, parse_semver_tag, re_match, re_release, re_prerelease,
    re_prerelease_compat, vnum.
  simpl app; rewrite !Hv; reflexivity.
Qed.

(** [resolve_constraints] on two non-empty constraints parses both. *)
Lemma resolve_constraints_parsed (n c : str) (pn pc : constraint_info) :
  n <> [] -> c <> [] -> parse_constraint n = Ok pn -> parse_constraint c = Ok pc ->
  resolve_constraints (Some n) (Some c) =
    if str_eqb (comparator pc) (lit "==") then Ok c
    else if str_eqb (comparator pn) (lit "==") then Ok n
    else if negb (str_eqb (comparator pn) (comparator pc)) then Exc ConstraintResolutionException
    else if str_eqb (comparator pn) (lit ">=") then Ok (lit ">=" ++ py_max (tag pn) (tag pc))
    else if str_eqb (comparator pn) (lit "<=") then Ok (lit "<=" ++ py_min (tag pn) (tag pc))
    else Exc ConstraintFormatException.
Proof.
  intros Hn Hc Hpn Hpc.
  destruct n as [|a n']; [congruence|]; destruct c as [|b c']; [congruence|].
  unfold resolve_constraints; cbn [have negb andb].
  rewrite Hpn, Hpc; reflexivity.
Qed.

Lemma first_some_none {A B} (f : A -> option B) (l : list A) :
  (forall x, In x l -> f x = None) -> first_some f l = None.
Proof.
  induction l as [|x l IH]; intro H; [reflexivity|].
  simpl; rewrite (H x (or_introl eq_refl)); apply IH; intros y Hy; apply H; right; exact Hy.
Qed.

(** [parse_constraint] on a string without any of [=><]: the search finds
    nothing. *)
Lemma re_search_comparator_none (s : str) :
  forallb (fun c => negb (is_cmp c)) s = true -> re_search comparator_re s = None.
Proof.
  intro H; unfold re_search; apply first_some_none; intros i _.
  unfold comparator_re, plus_g; simpl mseq.
  rewrite (run_len_skipn_none _ _ i H); reflexivity.
Qed.

(** ** Constraint resolution against the tags of a repository *)

(** C1: with the tags [v1.0.0] and [v2.0.0-pre] and the constraint
    [>=v1.0.0], the [>=] scan of [resolve_constraint_to_object] selects the
    pre-release tag [v2.0.0-pre] instead of skipping it: the scan asks
    [is_tag_prerelease] about the version [2.0.0-pre] without its [v],
    for which it is false, while the tag [v2.0.0-pre] is a pre-release. *)
Theorem ge_scan_selects_prerelease :
  resolve_constraint_to_object (tags_remote prerelease_tags) (lit "org") (lit "formula")
    (lit ">=v1.0.0") = Ok (Some (mk_tag "v2.0.0-pre"))
  /\ is_tag_prerelease (lit "v2.0.0-pre") = Ok true
  /\ is_tag_prerelease (lit "2.0.0-pre") = Ok false.
Proof.
  split; [|split]; [vm_compute; reflexivity | vm_compute; reflexivity |].
  apply is_tag_prerelease_without_v; reflexivity.
Qed.

(** C2: for two non-empty constraints that [parse_constraint] parses, a
    current [==] constraint is the result, and otherwise a new [==]
    constraint is; both argument orders of [==v1.0] and [>=v0.9] give
    [==v1.0]. *)
Theorem resolve_constraints_equality_wins (n c : str) (pn pc : constraint_info) :
  n <> [] -> c <> [] -> parse_constraint n = Ok pn -> parse_constraint c = Ok pc ->
  (comparator pc = lit "==" -> resolve_constraints (Some n) (Some c) = Ok c)
  /\ (comparator pc <> lit "==" -> comparator pn = lit "==" ->
      resolve_constraints (Some n) (Some c) = Ok n)
  /\ resolve_constraints (Some (lit "==v1.0")) (Some (lit ">=v0.9")) = Ok (lit "==v1.0")
  /\ resolve_constraints (Some (lit ">=v0.9")) (Some (lit "==v1.0")) = Ok (lit "==v1.0").
Proof.
  intros Hn Hc Hpn Hpc.
  rewrite (resolve_constraints_parsed n c pn pc Hn Hc Hpn Hpc).
  split; [|split; [|split]].
  - intro E; rewrite E, str_eqb_refl; reflexivity.
  - intros E1 E2; rewrite (str_eqb_neq _ _ E1), E2, str_eqb_refl; reflexivity.
  - vm_compute; reflexivity.
  - vm_compute; reflexivity.
Qed.

Lemma resolve_constraints_equality_wins_witness :
  (comparator {| comparator := lit ">="; tag := lit "v0.9"; version := Some (lit "0.9");
                 postfix := None |} = lit "==" ->
   resolve_constraints (Some (lit "==v1.0")) (Some (lit ">=v0.9")) = Ok (lit ">=v0.9"))
  /\ (comparator {| comparator := lit ">="; tag := lit "v0.9"; version := Some (lit "0.9");
                    postfix := None |} <> lit "==" ->
      comparator {| comparator := lit "=="; tag := lit "v1.0"; version := Some (lit "1.0");
                    postfix := None |} = lit "==" ->
      resolve_constraints (Some (lit "==v1.0")) (Some (lit ">=v0.9")) = Ok (lit "==v1.0"))
  /\ resolve_constraints (Some (lit "==v1.0")) (Some (lit ">=v0.9")) = Ok (lit "==v1.0")
  /\ resolve_constraints (Some (lit ">=v0.9")) (Some (lit "==v1.0")) = Ok (lit "==v1.0").
Proof.
  apply (resolve_constraints_equality_wins (lit "==v1.0") (lit ">=v0.9")
           {| comparator := lit "=="; tag := lit "v1.0"; version := Some (lit "1.0"); postfix := None |}
           {| comparator := lit ">="; tag := lit "v0.9"; version := Some (lit "0.9"); postfix := None |});
    [discriminate | discriminate | vm_compute; reflexivity | vm_compute; reflexivity].
Defined.

(** C3: two non-empty constraints that [parse_constraint] parses, with
    different comparators neither of which is [==], make
    [resolve_constraints] raise [ConstraintResolutionException]; so do
    [>=v1.0] and [<=v2.0]. *)
Theorem resolve_constraints_conflict (n c : str) (pn pc : constraint_info) :
  n <> [] -> c <> [] -> parse_constraint n = Ok pn -> parse_constraint c = Ok pc ->
  comparator pn <> comparator pc -> comparator pn <> lit "==" -> comparator pc <> lit "==" ->
  resolve_constraints (Some n) (Some c) = Exc ConstraintResolutionException
  /\ resolve_constraints (Some (lit ">=v1.0")) (Some (lit "<=v2.0"))
     = Exc ConstraintResolutionException.
Proof.
  intros Hn Hc Hpn Hpc Hd Hn2 Hc2; split; [|vm_compute; reflexivity].
  rewrite (resolve_constraints_parsed n c pn pc Hn Hc Hpn Hpc).
  rewrite (str_eqb_neq _ _ Hc2), (str_eqb_neq _ _ Hn2), (str_eqb_neq _ _ Hd); reflexivity.
Qed.

Lemma resolve_constraints_conflict_witness :
  resolve_constraints (Some (lit ">=v1.0")) (Some (lit "<=v2.0")) = Exc ConstraintResolutionException
  /\ resolve_constraints (Some (lit ">=v1.0")) (Some (lit "<=v2.0"))
     = Exc ConstraintResolutionException.
Proof.
  apply (resolve_constraints_conflict (lit ">=v1.0") (lit "<=v2.0")
           {| comparator := lit ">="; tag := lit "v1.0"; version := Some (lit "1.0"); postfix := None |}
           {| comparator := lit "<="; tag := lit "v2.0"; version := Some (lit "2.0"); postfix := None |});
    try discriminate; vm_compute; reflexivity.
Defined.

(** C4: an [==] constraint whose version is among the tag versions but
    whose tag is not the name of a tag object makes
    [resolve_constraint_to_object] return [None], neither a tag record
    nor an exception: against [v1.0.1] and [v2.0.1], [==v1.0.1-rc1] (version
    [1.0.1]) and [==V1.0.1] give [None]; [==v6.6.6] raises
    [ConstraintResolutionException]. *)
Theorem eq_constraint_version_without_tag :
  resolve_constraint_to_object (tags_remote sample_tags) (lit "org") (lit "formula")
    (lit "==v1.0.1-rc1") = Ok None
  /\ resolve_constraint_to_object (tags_remote sample_tags) (lit "org") (lit "formula")
       (lit "==V1.0.1") = Ok None
  /\ resolve_constraint_to_object (tags_remote sample_tags) (lit "org") (lit "formula")
       (lit "==v1.0.1") = Ok (hd_error sample_tags)
  /\ resolve_constraint_to_object (tags_remote sample_tags) (lit "org") (lit "formula")
       (lit "==v6.6.6") = Exc ConstraintResolutionException.
Proof. vm_compute. repeat split; reflexivity. Qed.

(** C7: [parse_constraint] raises [AttributeError] on every string that
    contains none of [=><], the empty string among them: [match] is
    [None] and [match.group(1)] is looked up on it. *)
Theorem parse_constraint_raises_without_comparator (s : str) :
  forallb (fun c => negb (is_cmp c)) s = true ->
  parse_constraint s = Exc AttributeError.
Proof.
  intro H; unfold parse_constraint; rewrite (re_search_comparator_none s H); reflexivity.
Qed.

Lemma parse_constraint_raises_without_comparator_witness :
  parse_constraint [] = Exc AttributeError.
Proof. apply parse_constraint_raises_without_comparator; reflexivity. Defined.

(** C8: the tags [v1.1.1], [v2.2.2-pre] and [v3.3.3notsemver] give the
    tag versions [1.1.1], [2.2.2-pre] and [3.3.3notsemver];
    [get_latest_tag] returns [1.1.1] without pre-releases and
    [3.3.3notsemver], not [2.2.2-pre], with them: [3.3.3notsemver] matches
    the pre-release pattern without a dash.  Likewise the tag versions of
    the test [test_get_latest_tag_prereleases] give [3.3.3stillnotathing]. *)
Theorem get_latest_tag_mixed :
  tag_versions_of mixed_tags = Ok [lit "1.1.1"; lit "2.2.2-pre"; lit "3.3.3notsemver"]
  /\ get_latest_tag [lit "1.1.1"; lit "2.2.2-pre"; lit "3.3.3notsemver"] false
     = Ok (Some (lit "1.1.1"))
  /\ get_latest_tag [lit "1.1.1"; lit "2.2.2-pre"; lit "3.3.3notsemver"] true
     = Ok (Some (lit "3.3.3notsemver"))
  /\ is_tag_prerelease (lit "v3.3.3notsemver") = Ok true
  /\ get_latest_tag [lit "1.1.1"; lit "2.2.2-prerelease"; lit "notathing";
                    lit "3.3.3stillnotathing"] true
     = Ok (Some (lit "3.3.3stillnotathing")).
Proof. vm_compute. repeat split; reflexivity. Qed.

(** ** The dependency traversal *)

(** C5: the root [org/a-formula] needs [org/b-formula==v1.0.0], whose
    [formula-requirements.txt] needs [org/a-formula==v1.0.0]: the run ends
    normally and the root key is an entry of [dependencies], with the
    sourced constraints [['']]. *)
Theorem root_key_enters_dependencies :
  root_formula cycle_state = Some (lit "org/a-formula")
  /\ snd cycle_run = Ok tt
  /\ option_map (fun id => sourced_of (heap_get (fst cycle_run) id))
       (dict_get (lit "org/a-formula") (dependencies (fst cycle_run))) = Some [[]].
Proof. vm_compute. repeat split; reflexivity. Qed.

(** ** The metadata fallback *)

(** A requirement of a single character is not a GitHub url. *)
Lemma parse_requirement_one_char (c : ascii) : parse_requirement [c] = Exc TypeError.
Proof. destruct c as [[] [] [] [] [] [] [] []]; vm_compute; reflexivity. Qed.

Lemma parse_metadata_name_exc (v : pyval) (e : exn) :
  parse_metadata_name v = Exc e ->
  e = TypeError \/ e = ShakerConfigException \/ e = AttributeError.
Proof.
  intro H; unfold parse_metadata_name in H.
  destruct v as [| b | n ng | s | l | d]; cbn -[contains py_split existsb] in H;
    try (injection H; intros; subst; auto; fail).
  - destruct (contains _ s); cbn -[py_split] in H;
      [destruct (py_split _ s) as [|x [|y [|z r]]]|];
      first [discriminate | injection H; intros; subst; auto].
  - destruct (existsb _ l); injection H; intros; subst; auto.
  - destruct (existsb _ d); injection H; intros; subst; auto.
Qed.

Lemma parse_metadata_name_ok (v : pyval) (r : str * str) :
  parse_metadata_name v = Ok r -> exists c s, v = PStr (c :: s).
Proof.
  intro H; unfold parse_metadata_name in H.
  destruct v as [| b | n ng | s | l | d]; cbn -[contains py_split existsb] in H;
    try discriminate.
  - destruct s as [|c s]; [discriminate | eauto].
  - destruct (existsb _ l); discriminate.
  - destruct (existsb _ d); discriminate.
Qed.

(** C10 (counterexample): a [metadata.yml] holding a formula name and a
    dependency list is found by [_fetch_remote_file], and
    [_fetch_remote_metadata] raises [AttributeError] from [yaml.load] of
    the already loaded dictionary, before ["dependences"] is looked up. *)
Lemma metadata_fallback_raises_attribute_error :
  fetch_remote_file metadata_remote metadata_yaml_load (Some (lit "org")) (Some (lit "x-formula"))
    (lit "metadata.yml") [] = Ok (Some metadata_value)
  /\ truthy metadata_value = true
  /\ fetch_remote_metadata metadata_remote metadata_yaml_load (Some (lit "org"))
       (Some (lit "x-formula")) [] = Exc AttributeError.
Proof. vm_compute. repeat split; reflexivity. Qed.

(** C10: whenever [_fetch_remote_file] finds a truthy [metadata.yml],
    [_fetch_remote_metadata] raises, and never the [KeyError] of the
    ["dependences"] lookup: the second [yaml.load], [_parse_metadata_name]
    or [parse_metadata_requirements] (on the first character of a name
    string) raises before it. *)
Theorem fetch_remote_metadata_raises_before_lookup (R : remote)
  (yaml_load : str -> option pyval) (org_name formula_name : option str)
  (constraint : str) (v : pyval) :
  fetch_remote_file R yaml_load org_name formula_name (lit "metadata.yml") constraint
    = Ok (Some v) ->
  truthy v = true ->
  exists e, fetch_remote_metadata R yaml_load org_name formula_name constraint = Exc e
            /\ e <> KeyError (lit "dependences").
Proof.
  intros Hf Ht.
  unfold fetch_remote_metadata.
  destruct (token R) eqn:Etok;
    [|unfold fetch_remote_file in Hf; rewrite Etok in Hf; discriminate].
  cbn [negb]; rewrite Hf, Ht.
  destruct v as [| b | n ng | s | l | d];
    try (eexists; split; [reflexivity | discriminate]).
  cbn [yaml_reload]; destruct (yaml_load s) as [v'|];
    [| eexists; split; [reflexivity | discriminate]].
  cbn beta iota.
  destruct (parse_metadata_name v') as [r|e] eqn:Ep.
  - destruct (parse_metadata_name_ok v' r Ep) as [c [s' ->]].
    exists TypeError; split; [|discriminate].
    cbn [py_iter map]; unfold parse_metadata_requirements; cbn [parse_metadata_requirements_go].
    rewrite parse_requirement_one_char; reflexivity.
  - exists e; split; [reflexivity|].
    destruct (parse_metadata_name_exc v' e Ep) as [-> | [-> | ->]]; discriminate.
Qed.

Lemma fetch_remote_metadata_raises_before_lookup_witness :
  exists e, fetch_remote_metadata metadata_remote metadata_yaml_load (Some (lit "org"))
              (Some (lit "x-formula")) [] = Exc e
            /\ e <> KeyError (lit "dependences").
Proof.
  apply (fetch_remote_metadata_raises_before_lookup metadata_remote metadata_yaml_load
           (Some (lit "org")) (Some (lit "x-formula")) [] metadata_value);
    vm_compute; reflexivity.
Defined.

(** ** Traversal invariants: every visit is recorded once *)









Lemma heap_get_with_log (st : state) (l : list (str * str)) (i : nat) :
  heap_get (with_log st l) i = heap_get st i.
Proof. reflexivity. Qed.
















Lemma bind_lift {A B} (r : res A) (k : A -> M B) (st : state) :
  bind (lift r) k st = match r with Ok a => k a st | Exc e => (st, Exc e) end.
Proof. destruct r; reflexivity. Qed.










(** ** Lockfile lines read back *)
















































